(** * requireCssModule: option resolution, dispatch and the import fetcher

    A shallow embedding of [src/requireCssModule.js].  The module resolves a
    stylesheet into its map of local class names to scoped names by wiring
    caller options into an external transform pipeline.  Everything the
    module only calls (path and fs utilities, the module loader, the stylus
    compiler, the postcss engine, the name-generator factory) is a field of
    the [Host] class below; the logic authored by the module itself is
    translated function by function. *)

From Stdlib Require Import ZArith Ascii String.
From stdpp Require Import base option strings gmap list list_monad.

Local Open Scope string_scope.
Local Open Scope Z_scope.

(** ** JavaScript strings

    Strings are sequences of code units; [lastIndexOf] and [substr] follow
    ECMAScript's String.prototype.lastIndexOf (for a one-unit search string)
    and String.prototype.substr with its length argument omitted. *)

Module JsString.

Definition size (s : string) : Z := Z.of_nat (String.length s).

Fixpoint drop (n : nat) (s : string) : string :=
  match n, s with
  | O, _ => s
  | S _, EmptyString => EmptyString
  | S n', String _ s' => drop n' s'
  end.

(** Left-to-right scan keeping the last index at which [c] was seen;
    [-1] when [c] does not occur. *)
Fixpoint lastIndexFrom (c : ascii) (s : string) (i found : Z) : Z :=
  match s with
  | EmptyString => found
  | String a s' =>
      lastIndexFrom c s' (i + 1) (if Ascii.eqb a c then i else found)
  end.

Definition lastIndexOf (s : string) (c : ascii) : Z :=
  lastIndexFrom c s 0 (-1).

(** [s.substr(start)]: a negative start counts from the end and is
    clamped at 0, a start past the end is clamped at the size. *)
Definition substr (s : string) (start : Z) : string :=
  let from :=
    if start <? 0 then Z.max (size s + start) 0 else Z.min start (size s) in
  drop (Z.to_nat from) s.

(** [/<lit>$/.test(s)] for a literal [lit]: the matcher tries every start
    position from the left and succeeds where the rest of the input is
    exactly the literal. *)
Fixpoint testLiteralAtEnd (lit s : string) : bool :=
  if String.eqb s lit then true
  else match s with
       | EmptyString => false
       | String _ s' => testLiteralAtEnd lit s'
       end.

(** Does the code unit occur in the string? *)
Fixpoint occurs (c : ascii) (s : string) : bool :=
  match s with
  | EmptyString => false
  | String a s' => Ascii.eqb a c || occurs c s'
  end.

End JsString.

(** ** Values that may be absent

    JavaScript has two absent values; the module produces both ([null]
    explicitly, [undefined] from a missing property) and tests them only
    for truthiness. *)

Inductive Nullable (A : Type) : Type :=
| Null
| Undefined
| Val (a : A).
Arguments Null {A}.
Arguments Undefined {A}.
Arguments Val {A} a.

Definition isPresent {A} (x : Nullable A) : bool :=
  match x with Val _ => true | _ => false end.

(** A property read [obj[key]] on a plain object used as a map. *)
Definition getProperty {A} (obj : gmap string A) (key : string) : Nullable A :=
  match obj !! key with
  | Some a => Val a
  | None => Undefined
  end.

(** ** Errors and effects

    A call either returns or throws an error object.  The one effect the
    module performs itself is [console.warn]; the console is the list of
    lines printed so far, oldest first. *)

Record JsError : Type := { name : string; message : string }.

(** Error.prototype.toString. *)
Definition errorToString (e : JsError) : string :=
  if String.eqb (name e) "" then message e
  else if String.eqb (message e) "" then name e
  else name e +:+ ": " +:+ message e.

(** [new Error(err)] for an error object [err]: the argument is converted
    with ToString and becomes the message. *)
Definition newErrorFrom (err : JsError) : JsError :=
  {| name := "Error"; message := errorToString err |}.

(** What the engine raises when the call stack is exhausted. *)
Definition stackOverflow : JsError :=
  {| name := "RangeError"; message := "Maximum call stack size exceeded" |}.

Inductive Outcome (A : Type) : Type :=
| Returns (a : A)
| Throws (e : JsError).
Arguments Returns {A} a.
Arguments Throws {A} e.

#[global] Instance outcome_ret : MRet Outcome := fun _ a => Returns a.
#[global] Instance outcome_bind : MBind Outcome := fun _ _ f m =>
  match m with
  | Returns a => f a
  | Throws e => Throws e
  end.

Definition Console : Type := list string.

Definition M (A : Type) : Type := Console -> Outcome A * Console.

#[global] Instance M_ret : MRet M := fun _ a c => (Returns a, c).
#[global] Instance M_bind : MBind M := fun _ _ f m c =>
  match m c with
  | (Returns a, c') => f a c'
  | (Throws e, c') => (Throws e, c')
  end.

(** A call without console output. *)
Definition lift {A} (o : Outcome A) : M A := fun c => (o, c).

Definition console_warn (text : string) : M unit :=
  fun c => (Returns tt, (c ++ [text])%list).

(** [xs.forEach(f)] *)
Fixpoint forEach {A} (f : A -> M unit) (xs : list A) : M unit :=
  match xs with
  | [] => mret tt
  | x :: xs' => f x ≫= fun _ => forEach f xs'
  end.

(** ** Data of the module and of its collaborators *)

(** [StyleModuleMapType]: local class name to scoped name. *)
Abbreviation Tokens := (gmap string string).

(** Modelled from the spec: the scoped-name generator type, declared in
    [./types], which is not among the sources; the data model gives it as
    a function of local name, source file path and file contents. *)
Definition ScopedNameFn : Type := string -> string -> string -> string.

(** [GenerateScopedNameConfigurationType]: a naming function or a
    pattern. *)
Inductive GenerateScopedNameConfigurationType : Type :=
| NamingFunction (f : ScopedNameFn)
| NamingPattern (pattern : string).

Section Model.
(** [JsValue] stands for values the module passes along without
    inspecting them: loaded modules, plugin instances, plugin options. *)
Context {JsValue : Type}.

(** An entry of [plugins]: a module name, or a [name, options] pair. *)
Inductive PluginEntry : Type :=
| PluginName (plugin : string)
| PluginWithOptions (pluginName : string) (pluginOptions : JsValue).

(** [FiletypeOptionsType]; a field is [None] when the property is
    missing. *)
Record FiletypeOptionsType : Type := {
  fo_syntax : option string;
  fo_plugins : option (list PluginEntry)
}.

(** [OptionsType] *)
Record OptionsType : Type := {
  filetypes : option (gmap string FiletypeOptionsType);
  generateScopedName : option GenerateScopedNameConfigurationType;
  context : option string
}.

(** The options object handed to [runner.process]: [from] is always
    there; [syntax] is [None] while the property has not been assigned,
    and holds the assigned value (possibly [null]) afterwards. *)
Record ProcessOptions : Type := {
  from : string;
  syntax : option (Nullable JsValue)
}.

Record Warning : Type := { text : string }.

(** What the module reads from the engine's lazy result. *)
Record LazyResult : Type := {
  warnings : list Warning;
  root_tokens : Tokens
}.

(** The stages of the pipeline.  [Scope] and [Parser] carry the
    configuration they are constructed with. *)
Inductive Plugin : Type :=
| Extra (instance : JsValue)
| Values
| LocalByDefault
| ExtractImports
| Scope (generateScopedName : ScopedNameFn)
| Parser (fetch : string -> string -> M Tokens).

(** [postcss(plugins)] *)
Record Processor : Type := postcss { plugins : list Plugin }.

(** The stylus renderer: the source given to [stylus(src)] and the
    configuration calls made on it, in order. *)
Inductive StylusCall : Type :=
| StylusSet (key value : string)
| StylusImport (file : string)
| StylusDefine (constant : string) (value : bool)
| StylusUse (plugin : JsValue).

Record StylusRenderer : Type := {
  str : string;
  calls : list StylusCall
}.

Definition stylus (src : string) : StylusRenderer :=
  {| str := src; calls := [] |}.

Definition configure (call : StylusCall) (r : StylusRenderer) : StylusRenderer :=
  {| str := str r; calls := (calls r ++ [call])%list |}.

(** ** The collaborators

    Calls that leave the module.  [stylusRender] gives the pair the
    renderer passes to its callback, which it invokes before [render]
    returns: [inl err] on a compile error, [inr css] otherwise.
    [postcssProcess] stands for [runner.process(src, options)] forced by
    [.warnings()]; it is the only collaborator that may call back into
    the module (through the fetch function of its [Parser] stage), hence
    it lives in [M].  [optionsDefaults_generateScopedName] is the
    constant of [./schemas/optionsDefaults], not among the sources. *)
Class Host : Type := {
  dirname : string -> string;
  resolve : string -> string -> string;
  join : string -> string -> string;
  readFileSync : string -> Outcome string;
  existsSync : string -> bool;
  cwd : string;
  require : string -> Outcome JsValue;
  callFunction : JsValue -> JsValue -> Outcome JsValue;
  property : JsValue -> string -> Outcome JsValue;
  truthy : JsValue -> bool;
  stylusHashPlugin : string -> JsValue -> JsValue;
  stylusRender : StylusRenderer -> JsError + string;
  genericNames : string -> string -> ScopedNameFn;
  optionsDefaults_generateScopedName : string;
  postcssProcess : Processor -> string -> ProcessOptions -> M LazyResult
}.

Context {host : Host}.

(** [getFiletypeOptions], lines 42-47. *)
Definition getFiletypeOptions (cssSourceFilePath : string)
    (filetypes : option (gmap string FiletypeOptionsType))
    : Nullable FiletypeOptionsType :=
  let extension :=
    JsString.substr cssSourceFilePath
      (JsString.lastIndexOf cssSourceFilePath ".") in
  match filetypes with
  | Some ft => getProperty ft extension
  | None => Null
  end.

(** [getSyntax], lines 50-57.  An empty module name is falsy. *)
Definition getSyntax (filetypeOptions : Nullable FiletypeOptionsType)
    : Outcome (Nullable JsValue) :=
  match filetypeOptions with
  | Val fo =>
      match fo_syntax fo with
      | Some name =>
          if String.eqb name "" then Returns Null
          else m ← require name; Returns (Val m)
      | None => Returns Null
      end
  | _ => Returns Null
  end.

(** The callback of [plugins.map], lines 65-75. *)
Definition loadPlugin (plugin : PluginEntry) : Outcome JsValue :=
  match plugin with
  | PluginWithOptions pluginName pluginOptions =>
      factory ← require pluginName; callFunction factory pluginOptions
  | PluginName plugin => require plugin
  end.

(** [getExtraPlugins], lines 60-76. *)
Definition getExtraPlugins (filetypeOptions : Nullable FiletypeOptionsType)
    : Outcome (list JsValue) :=
  match filetypeOptions with
  | Val fo =>
      match fo_plugins fo with
      | Some plugins => mapM loadPlugin plugins
      | None => Returns []
      end
  | _ => Returns []
  end.

(** [/\.styl$/.test(cssSourceFilePath)], line 86. *)
Definition isStylusPath (cssSourceFilePath : string) : bool :=
  JsString.testLiteralAtEnd ".styl" cssSourceFilePath.

(** The renderer set up on the dialect branch of [getTokens],
    lines 87-107. *)
Definition stylusCompiler (cssSourceFilePath src : string)
    : Outcome StylusRenderer :=
  let STYLES_PATH := join cwd "styles/index.styl" in
  let CONFIG_PATH := join cwd "startupjs.config.js" in
  let compiler := stylus src in
  let compiler := configure (StylusSet "filename" cssSourceFilePath) compiler in
  let compiler :=
    if existsSync STYLES_PATH
    then configure (StylusImport STYLES_PATH) compiler
    else compiler in
  let compiler := configure (StylusDefine "__WEB__" true) compiler in
  if existsSync CONFIG_PATH then
    config ← require CONFIG_PATH;
    ui ← property config "ui";
    if truthy ui
    then Returns (configure (StylusUse (stylusHashPlugin "$UI" ui)) compiler)
    else Returns compiler
  else Returns compiler.

(** [compiler.render] with the callback of lines 109-114. *)
Definition renderStylus (compiler : StylusRenderer) : Outcome string :=
  match stylusRender compiler with
  | inl err => Throws (newErrorFrom err)
  | inr res => Returns res
  end.

(** The first half of [getTokens], lines 80-117: the text and the options
    that go to the pipeline. *)
Definition prepareSource (cssSourceFilePath : string)
    (filetypeOptions : Nullable FiletypeOptionsType)
    : Outcome (string * ProcessOptions) :=
  let options := {| from := cssSourceFilePath; syntax := None |} in
  src ← readFileSync cssSourceFilePath;
  if isStylusPath cssSourceFilePath then
    compiler ← stylusCompiler cssSourceFilePath src;
    res ← renderStylus compiler;
    Returns (res, options)
  else if isPresent filetypeOptions then
    syntaxObject ← getSyntax filetypeOptions;
    Returns (src, {| from := from options; syntax := Some syntaxObject |})
  else Returns (src, options).

(** [getTokens], lines 78-130. *)
Definition getTokens (runner : Processor) (cssSourceFilePath : string)
    (filetypeOptions : Nullable FiletypeOptionsType) : M Tokens :=
  prepared ← lift (prepareSource cssSourceFilePath filetypeOptions);
  lazyResult ← postcssProcess runner prepared.1 prepared.2;
  _ ← forEach (fun message => console_warn (text message))
        (warnings lazyResult);
  mret (root_tokens lazyResult).

(** The generator chosen at lines 136-144.  An empty pattern and an
    empty context are falsy and give way to the defaults. *)
Definition scopedNameGenerator (options : OptionsType) : ScopedNameFn :=
  match generateScopedName options with
  | Some (NamingFunction f) => f
  | configured =>
      let pattern :=
        match configured with
        | Some (NamingPattern p) =>
            if String.eqb p "" then optionsDefaults_generateScopedName else p
        | _ => optionsDefaults_generateScopedName
        end in
      let context :=
        match context options with
        | Some dir => if String.eqb dir "" then cwd else dir
        | None => cwd
        end in
      genericNames pattern context
  end.

(** The plugin list of lines 157-168. *)
Definition pipeline (extraPlugins : list JsValue)
    (generateScopedName : ScopedNameFn)
    (fetch : string -> string -> M Tokens) : list Plugin :=
  (map Extra extraPlugins ++
   [Values; LocalByDefault; ExtractImports;
    Scope generateScopedName; Parser fetch])%list.

(** [fetch], lines 148-153, a closure over [runner] and
    [filetypeOptions]; [runner] in turn holds [fetch] in its [Parser]
    stage.  [depth] is the number of nested [fetch] calls the call stack
    still has room for; with none left the call raises the engine's
    stack-depth error. *)
Fixpoint fetch (depth : nat) (extraPlugins : list JsValue)
    (generateScopedName : ScopedNameFn)
    (filetypeOptions : Nullable FiletypeOptionsType)
    (to from : string) {struct depth} : M Tokens :=
  match depth with
  | O => lift (Throws stackOverflow)
  | S depth' =>
      let runner :=
        postcss (pipeline extraPlugins generateScopedName
                   (fetch depth' extraPlugins generateScopedName
                      filetypeOptions)) in
      let fromDirectoryPath := dirname from in
      let toPath := resolve fromDirectoryPath to in
      getTokens runner toPath filetypeOptions
  end.

(** The default export, lines 132-171. *)
Definition requireCssModule (depth : nat) (cssSourceFilePath : string)
    (options : OptionsType) : M Tokens :=
  let generateScopedName := scopedNameGenerator options in
  let filetypeOptions :=
    getFiletypeOptions cssSourceFilePath (filetypes options) in
  extraPlugins ← lift (getExtraPlugins filetypeOptions);
  let runner :=
    postcss (pipeline extraPlugins generateScopedName
               (fetch depth extraPlugins generateScopedName
                  filetypeOptions)) in
  getTokens runner cssSourceFilePath filetypeOptions.

(** ** Vocabulary for the statements about recursion *)

(** A computation that ends in the stack-depth error, whatever the
    console held before. *)
Definition overflows {A} (m : M A) : Prop :=
  forall c : Console, exists c' : Console, m c = (Throws stackOverflow, c').

(** The text [src], processed under [processOptions] by the pipeline of
    this module, composes from the file referred to as [to]: the parsing
    stage asks its fetch function for [to], naming the processed file as
    the importer, and a stack-depth error raised by that request is the
    outcome of the run. *)
Definition composesFrom (extraPlugins : list JsValue)
    (generateScopedName : ScopedNameFn)
    (src : string) (processOptions : ProcessOptions) (to : string) : Prop :=
  forall fetch : string -> string -> M Tokens,
    overflows (fetch to (from processOptions)) ->
    overflows
      (postcssProcess
         (postcss (pipeline extraPlugins generateScopedName fetch))
         src processOptions).

End Model.

(** ** A small host to run the model on

    Files live in one directory; a source text of the form [@rel] composes
    from [rel], any other text declares one class of that name.  The toy
    engine reports, as a warning, the file it was given and the syntax
    option it saw. *)

Module Demo.

Definition files : gmap string string :=
  {[ "/app/a.css" := "@b.css";
     "/app/b.css" := "@a.css";
     "/app/button.css" := "button";
     "/app/main.scss" := "@button.css";
     "/app/theme.styl" := "theme";
     "/app/broken.styl" := "}";
     "/app/Makefile" := "all" ]}.

Definition noSuchFile : JsError :=
  {| name := "Error"; message := "ENOENT: no such file or directory" |}.

Definition noSuchModule : JsError :=
  {| name := "Error"; message := "Cannot find module" |}.

Definition unexpectedBrace : JsError :=
  {| name := "ParseError"; message := "unexpected }" |}.

Definition parserFetch (stages : list (@Plugin string))
    : string -> string -> M Tokens :=
  match last stages with
  | Some (Parser fetch) => fetch
  | _ => fun _ _ => lift (Returns ∅)
  end.

Fixpoint scopeGenerator (stages : list (@Plugin string)) : ScopedNameFn :=
  match stages with
  | [] => fun localName _ _ => localName
  | Scope generate :: _ => generate
  | _ :: stages' => scopeGenerator stages'
  end.

Definition syntaxNote (options : @ProcessOptions string) : string :=
  match syntax options with
  | None => " syntax unset"
  | Some (Val m) => " syntax " +:+ m
  | Some _ => " syntax null"
  end.

Definition process (runner : @Processor string) (src : string)
    (options : @ProcessOptions string) : M (@LazyResult) :=
  let note := {| text := from options +:+ syntaxNote options |} in
  match src with
  | String "@" rel =>
      imported ← parserFetch (plugins runner) rel (from options);
      mret {| warnings := [note]; root_tokens := imported |}
  | _ =>
      mret {| warnings := [note];
              root_tokens :=
                {[ src := scopeGenerator (plugins runner) src
                            (from options) src ]} |}
  end.

#[local] Instance host : @Host string := {|
  dirname := fun _ => "/app";
  resolve := fun directory to => directory +:+ "/" +:+ to;
  join := fun a b => a +:+ "/" +:+ b;
  readFileSync := fun path =>
    match files !! path with
    | Some content => Returns content
    | None => Throws noSuchFile
    end;
  existsSync := fun _ => false;
  cwd := "/app";
  require := fun module =>
    if String.eqb module "missing" then Throws noSuchModule
    else Returns module;
  callFunction := fun f argument => Returns (f +:+ "(" +:+ argument +:+ ")");
  property := fun _ _ => Returns "";
  truthy := fun v => negb (String.eqb v "");
  stylusHashPlugin := fun _ ui => ui;
  stylusRender := fun compiler =>
    if String.eqb (str compiler) "}" then inl unexpectedBrace
    else inr (str compiler);
  genericNames := fun pattern context localName _ _ =>
    context +:+ ":" +:+ pattern +:+ ":" +:+ localName;
  optionsDefaults_generateScopedName :=
    "[path]___[name]__[local]___[hash:base64:5]";
  postcssProcess := process
|}.

Definition scssOptions : @FiletypeOptionsType string :=
  {| fo_syntax := Some "postcss-scss";
     fo_plugins := Some [PluginName "postcss-nested";
                         PluginWithOptions "autoprefixer" "{}"] |}.

Definition options : @OptionsType string :=
  {| filetypes := Some {[ ".scss" := scssOptions;
                          ".styl" := scssOptions;
                          "e" := scssOptions ]};
     generateScopedName := Some (NamingFunction (fun localName _ _ => "_" +:+ localName));
     context := None |}.

End Demo.

(** A project directory with a shared stylesheet and a configuration file;
    [configLoads] tells whether the configuration module can be loaded.
    Its stylus compiler rejects nothing: it answers with the text it was
    given, prefixed by a word that tells whether all four configuration
    calls were made, so that the set-up is visible in the result. *)

Module DemoProject.

Definition configPath : string := "/project/startupjs.config.js".

Definition render (compiler : @StylusRenderer string) : JsError + string :=
  inr (match length (calls compiler) with
       | 4%nat => "configured:"
       | _ => "bare:"
       end +:+ str compiler).

#[local] Instance host (configLoads : bool) : @Host string := {|
  dirname := @dirname _ Demo.host;
  resolve := @resolve _ Demo.host;
  join := @join _ Demo.host;
  readFileSync := @readFileSync _ Demo.host;
  existsSync := fun _ => true;
  cwd := "/project";
  require := fun module =>
    if String.eqb module configPath && negb configLoads
    then Throws Demo.noSuchModule
    else @require _ Demo.host module;
  callFunction := @callFunction _ Demo.host;
  property := fun _ key => Returns ("dark " +:+ key);
  truthy := @truthy _ Demo.host;
  stylusHashPlugin := fun constant ui => constant +:+ "=" +:+ ui;
  stylusRender := render;
  genericNames := @genericNames _ Demo.host;
  optionsDefaults_generateScopedName :=
    @optionsDefaults_generateScopedName _ Demo.host;
  postcssProcess := Demo.process
|}.

(** An entry whose second plugin cannot be loaded. *)
Definition brokenPlugins : @FiletypeOptionsType string :=
  {| fo_syntax := None;
     fo_plugins := Some [PluginName "postcss-nested"; PluginName "missing";
                         PluginWithOptions "autoprefixer" "{}"] |}.

(** An entry whose syntax module cannot be loaded. *)
Definition brokenSyntax : @FiletypeOptionsType string :=
  {| fo_syntax := Some "missing"; fo_plugins := None |}.

(** An entry without a syntax. *)
Definition pluginsOnly : @FiletypeOptionsType string :=
  {| fo_syntax := None; fo_plugins := Some [PluginName "postcss-nested"] |}.

Definition options (entry : @FiletypeOptionsType string)
    : @OptionsType string :=
  {| filetypes := Some {[ ".css" := entry ]};
     generateScopedName := None;
     context := None |}.

End DemoProject.

(** The files of [Demo] under an engine that reports, as warnings, the
    stages it was built with, in order, and then the syntax option it
    saw. *)

Module DemoStages.

Definition stageName (stage : @Plugin string) : string :=
  match stage with
  | Extra instance => instance
  | Values => "values"
  | LocalByDefault => "local-by-default"
  | ExtractImports => "extract-imports"
  | Scope _ => "scope"
  | Parser _ => "parser"
  end.

Definition process (runner : @Processor string) (src : string)
    (options : @ProcessOptions string) : M (@LazyResult) :=
  mret {| warnings :=
            (map (fun stage => {| text := stageName stage |}) (plugins runner)
             ++ [{| text := Demo.syntaxNote options |}])%list;
          root_tokens :=
            {[ src := Demo.scopeGenerator (plugins runner) src
                        (from options) src ]} |}.

#[local] Instance host : @Host string := {|
  dirname := @dirname _ Demo.host;
  resolve := @resolve _ Demo.host;
  join := @join _ Demo.host;
  readFileSync := @readFileSync _ Demo.host;
  existsSync := @existsSync _ Demo.host;
  cwd := @cwd _ Demo.host;
  require := @require _ Demo.host;
  callFunction := @callFunction _ Demo.host;
  property := @property _ Demo.host;
  truthy := @truthy _ Demo.host;
  stylusHashPlugin := @stylusHashPlugin _ Demo.host;
  stylusRender := @stylusRender _ Demo.host;
  genericNames := @genericNames _ Demo.host;
  optionsDefaults_generateScopedName :=
    @optionsDefaults_generateScopedName _ Demo.host;
  postcssProcess := process
|}.

End DemoStages.

(** ** Facts about the string primitives *)

Section StringFacts.

Lemma append_cons (a : ascii) (s t : string) :
  String a s +:+ t = String a (s +:+ t).
Proof. reflexivity. Qed.

Lemma append_nil (t : string) : "" +:+ t = t.
Proof. reflexivity. Qed.

Lemma append_nil_r (s : string) : s +:+ "" = s.
Proof.
  induction s as [|a s IH]; [reflexivity|]. rewrite append_cons. now f_equal.
Qed.

Lemma append_assoc (s t u : string) : (s +:+ t) +:+ u = s +:+ t +:+ u.
Proof.
  induction s as [|a s IH]; [reflexivity|]. rewrite !append_cons. now f_equal.
Qed.

Lemma size_cons (a : ascii) (s : string) :
  JsString.size (String a s) = JsString.size s + 1.
Proof. unfold JsString.size. cbn [String.length]. lia. Qed.

Lemma size_nonneg (s : string) : 0 <= JsString.size s.
Proof. unfold JsString.size. lia. Qed.

Lemma size_append (s t : string) :
  JsString.size (s +:+ t) = JsString.size s + JsString.size t.
Proof.
  induction s as [|a s IH].
  - rewrite append_nil. unfold JsString.size. cbn. lia.
  - rewrite append_cons, !size_cons, IH. lia.
Qed.

Lemma drop_size_append (s t : string) :
  JsString.drop (Z.to_nat (JsString.size s)) (s +:+ t) = t.
Proof.
  unfold JsString.size. rewrite Nat2Z.id.
  induction s as [|a s IH]; [reflexivity|].
  rewrite append_cons. cbn [String.length JsString.drop]. exact IH.
Qed.

Lemma lastIndexFrom_absent (c : ascii) (s : string) (i found : Z) :
  JsString.occurs c s = false ->
  JsString.lastIndexFrom c s i found = found.
Proof.
  revert i found. induction s as [|a s IH]; intros i found H; [reflexivity|].
  cbn in H. apply orb_false_iff in H as [Ha Hs].
  cbn. rewrite Ha. now apply IH.
Qed.

Lemma lastIndexFrom_append (c : ascii) (s t : string) (i found : Z) :
  JsString.lastIndexFrom c (s +:+ t) i found =
  JsString.lastIndexFrom c t (i + JsString.size s)
    (JsString.lastIndexFrom c s i found).
Proof.
  revert i found. induction s as [|a s IH]; intros i found.
  - rewrite append_nil. cbn. f_equal. unfold JsString.size. cbn. lia.
  - rewrite append_cons. cbn [JsString.lastIndexFrom].
    rewrite IH, size_cons. f_equal. lia.
Qed.

(** The last index of a separator that is followed by none. *)
Lemma lastIndexOf_last (c : ascii) (stem rest : string) :
  JsString.occurs c rest = false ->
  JsString.lastIndexOf (stem +:+ String c rest) c = JsString.size stem.
Proof.
  intros H. unfold JsString.lastIndexOf.
  rewrite lastIndexFrom_append. cbn [JsString.lastIndexFrom].
  rewrite Ascii.eqb_refl, lastIndexFrom_absent by assumption. lia.
Qed.

Lemma substr_at_size (stem rest : string) :
  JsString.substr (stem +:+ rest) (JsString.size stem) = rest.
Proof.
  unfold JsString.substr. pose proof (size_nonneg stem).
  pose proof (size_nonneg rest).
  destruct (Z.ltb_spec (JsString.size stem) 0); [lia|].
  rewrite size_append, Z.min_l by lia. apply drop_size_append.
Qed.

(** The extension the resolver computes for a path with a dot. *)
Lemma extension_after_last_dot (stem rest : string) :
  JsString.occurs "." rest = false ->
  JsString.substr (stem +:+ String "." rest)
    (JsString.lastIndexOf (stem +:+ String "." rest) ".") = String "." rest.
Proof.
  intros H. rewrite lastIndexOf_last by assumption. apply substr_at_size.
Qed.

Lemma lastIndexOf_absent (c : ascii) (s : string) :
  JsString.occurs c s = false -> JsString.lastIndexOf s c = -1.
Proof. apply lastIndexFrom_absent. Qed.

Lemma substr_minus_one (init : string) (last : ascii) :
  JsString.substr (init +:+ String last "") (-1) = String last "".
Proof.
  unfold JsString.substr. cbn [Z.ltb Z.compare].
  rewrite size_append, size_cons. pose proof (size_nonneg init).
  change (JsString.size "") with 0.
  replace (Z.max (JsString.size init + (0 + 1) + -1) 0)
    with (JsString.size init) by lia.
  apply drop_size_append.
Qed.

Lemma occurs_append (c : ascii) (s t : string) :
  JsString.occurs c (s +:+ t) = JsString.occurs c s || JsString.occurs c t.
Proof.
  induction s as [|a s IH]; [reflexivity|].
  rewrite append_cons. cbn. rewrite IH. now rewrite orb_assoc.
Qed.

Lemma testLiteralAtEnd_append (lit s : string) :
  JsString.testLiteralAtEnd lit (s +:+ lit) = true.
Proof.
  induction s as [|a s IH].
  - rewrite append_nil. destruct lit; cbn; now rewrite ?String.eqb_refl, ?Ascii.eqb_refl.
  - rewrite append_cons. cbn [JsString.testLiteralAtEnd].
    rewrite IH. now destruct (String.eqb _ _).
Qed.

Lemma testLiteralAtEnd_suffix (lit s : string) :
  JsString.testLiteralAtEnd lit s = true -> exists stem, s = stem +:+ lit.
Proof.
  induction s as [|a s IH]; cbn [JsString.testLiteralAtEnd].
  - destruct (String.eqb_spec "" lit) as [<-|]; [|discriminate].
    intros _. now exists "".
  - destruct (String.eqb_spec (String a s) lit) as [<-|].
    + intros _. now exists "".
    + intros [stem ->]%IH. now exists (String a stem).
Qed.

(** A path without a dot is not a stylus path. *)
Lemma dotless_not_stylus (path : string) :
  JsString.occurs "." path = false ->
  JsString.testLiteralAtEnd ".styl" path = false.
Proof.
  intros H. destruct (JsString.testLiteralAtEnd ".styl" path) eqn:E; [|reflexivity].
  apply testLiteralAtEnd_suffix in E as [stem ->].
  rewrite occurs_append in H. apply orb_false_iff in H as [_ H]. discriminate.
Qed.

End StringFacts.

(** ** The filetype option resolver *)

Section Resolver.
Context {JsValue : Type}.

(** C2.  For a path [stem.rest] whose last dot is the one before [rest],
    the resolver returns the record stored under the key [.rest], the
    substring from the last dot to the end with the dot included; it
    gives [undefined] when the mapping has no such key and [null] when
    the mapping itself is absent, whatever the path.  The resolver is a
    total function into [Nullable]: no outcome of it is an error. *)
Theorem getFiletypeOptions_by_extension
    (stem rest : string)
    (filetypes : option (gmap string (@FiletypeOptionsType JsValue))) :
  JsString.occurs "." rest = false ->
  let path := stem +:+ String "." rest in
  let extension := String "." rest in
  JsString.substr path (JsString.lastIndexOf path ".") = extension /\
  getFiletypeOptions path filetypes =
    match filetypes with
    | Some ft =>
        match ft !! extension with
        | Some record => Val record
        | None => Undefined
        end
    | None => Null
    end /\
  (forall anyPath : string,
      @getFiletypeOptions JsValue anyPath None = Null).
Proof.
  intros Hrest path extension.
  pose proof (extension_after_last_dot stem rest Hrest) as Hext.
  split; [exact Hext|]. split; [|reflexivity].
  unfold getFiletypeOptions. fold path in Hext |- *. rewrite Hext.
  destruct filetypes as [ft|]; reflexivity.
Qed.

End Resolver.

(** ** Mapping a loader over a list *)

Lemma mapM_cons_outcome {A B} (f : A -> Outcome B) (x : A) (l : list A) :
  mapM f (x :: l) =
  match f x with
  | Returns y =>
      match mapM f l with
      | Returns k => Returns (y :: k)
      | Throws e => Throws e
      end
  | Throws e => Throws e
  end.
Proof. reflexivity. Qed.

Lemma mapM_returns {A B} (f : A -> Outcome B) (l : list A) (k : list B) :
  mapM f l = Returns k <-> Forall2 (fun x y => f x = Returns y) l k.
Proof.
  revert k. induction l as [|x l IH]; intros k.
  - split.
    + intros H. injection H as <-. constructor.
    + intros H. inversion H. reflexivity.
  - rewrite mapM_cons_outcome. split.
    + destruct (f x) as [y|] eqn:Hx; [|discriminate].
      destruct (mapM f l) as [k'|] eqn:Hl; [|discriminate].
      intros H. injection H as <-. constructor; [exact Hx|]. now apply IH.
    + intros H. inversion H as [|? y ? k' Hx Hl]; subst.
      rewrite Hx. apply IH in Hl. now rewrite Hl.
Qed.

Lemma mapM_throws_first {A B} (f : A -> Outcome B)
    (before after : list A) (failing : A) (loaded : list B) (e : JsError) :
  Forall2 (fun x y => f x = Returns y) before loaded ->
  f failing = Throws e ->
  mapM f (before ++ failing :: after)%list = Throws e.
Proof.
  intros Hbefore Hfailing.
  induction Hbefore as [|x y before loaded Hx _ IH].
  - cbn [app]. rewrite mapM_cons_outcome. now rewrite Hfailing.
  - cbn [app]. rewrite mapM_cons_outcome. now rewrite Hx, IH.
Qed.

(** ** Dispatch, extraction and the import fetcher *)

Section Properties.
Context {JsValue : Type} {host : @Host JsValue}.

Implicit Types (path : string) (options : @OptionsType JsValue).
Implicit Types (filetypeOptions : Nullable (@FiletypeOptionsType JsValue)).

Lemma forEach_console_warn (messages : list Warning) (c : Console) :
  forEach (fun message => console_warn (text message)) messages c =
  (Returns tt, (c ++ map text messages)%list).
Proof.
  revert c. induction messages as [|m ms IH]; intros c.
  - cbn. now rewrite app_nil_r.
  - cbn [forEach map]. unfold mbind, M_bind, console_warn at 1.
    rewrite IH, <- app_assoc. reflexivity.
Qed.

(** [getTokens] once the text and the options are known. *)
Lemma getTokens_prepared (runner : Processor) path filetypeOptions
    (src : string) (processOptions : ProcessOptions) (c : Console) :
  prepareSource path filetypeOptions = Returns (src, processOptions) ->
  getTokens runner path filetypeOptions c =
  match postcssProcess runner src processOptions c with
  | (Returns lazyResult, c') =>
      (Returns (root_tokens lazyResult),
       (c' ++ map text (warnings lazyResult))%list)
  | (Throws e, c') => (Throws e, c')
  end.
Proof.
  intros Hprep. unfold getTokens, mbind, M_bind, lift. rewrite Hprep. cbn.
  destruct (postcssProcess runner src processOptions c) as [[lazyResult|e] c'];
    [|reflexivity].
  now rewrite forEach_console_warn.
Qed.

(** [getTokens] when reading or preparing the source throws. *)
Lemma getTokens_prepare_throws (runner : Processor) path filetypeOptions
    (e : JsError) (c : Console) :
  prepareSource path filetypeOptions = Throws e ->
  getTokens runner path filetypeOptions c = (Throws e, c).
Proof.
  intros Hprep. unfold getTokens, mbind, M_bind, lift. now rewrite Hprep.
Qed.

(** [prepareSource] on a stylus path does not look at the filetype
    options. *)
Lemma prepareSource_stylus path filetypeOptions :
  isStylusPath path = true ->
  prepareSource path filetypeOptions =
  (src ← readFileSync path;
   compiler ← stylusCompiler path src;
   res ← renderStylus compiler;
   Returns (res, {| from := path; syntax := None |})).
Proof. intros H. unfold prepareSource. now rewrite H. Qed.

Lemma prepareSource_plain path filetypeOptions :
  isStylusPath path = false ->
  prepareSource path filetypeOptions =
  (src ← readFileSync path;
   if isPresent filetypeOptions then
     syntaxObject ← getSyntax filetypeOptions;
     Returns (src, {| from := path; syntax := Some syntaxObject |})
   else Returns (src, {| from := path; syntax := None |})).
Proof. intros H. unfold prepareSource. now rewrite H. Qed.

(** C9.  A path without any dot has last-dot index -1, so the resolver's
    key is the path's final code unit, and an entry stored under that key
    is returned.  The entry is then applied to the extensionless file.
    Its plugins: the loader maps [loadPlugin] over the entry's list, the
    top-level call puts the loaded instances, in order, in front of the
    five baseline stages, and so, whenever the listed plugins load, the
    call is the extraction under exactly that runner.  Its syntax: the
    path is not a stylus path, so the source is prepared with the syntax
    option set to what [getSyntax] gives for the entry, which is the
    module the entry names. *)
Theorem dotless_path_keyed_by_last_character
    (init : string) (last : ascii) (depth : nat) options
    (ft : gmap string FiletypeOptionsType) (entry : FiletypeOptionsType) :
  let path := init +:+ String last "" in
  let generate := scopedNameGenerator options in
  JsString.occurs "." path = false ->
  filetypes options = Some ft ->
  ft !! String last "" = Some entry ->
  JsString.lastIndexOf path "." = -1 /\
  JsString.substr path (JsString.lastIndexOf path ".") = String last "" /\
  getFiletypeOptions path (filetypes options) = Val entry /\
  getExtraPlugins (Val entry) =
    match fo_plugins entry with
    | Some plugins => mapM loadPlugin plugins
    | None => Returns []
    end /\
  requireCssModule depth path options =
    (extraPlugins ← lift (getExtraPlugins (Val entry));
     getTokens
       (postcss (map Extra extraPlugins ++
                 [Values; LocalByDefault; ExtractImports; Scope generate;
                  Parser (fetch depth extraPlugins generate (Val entry))]))
       path (Val entry)) /\
  (forall (plugins : list PluginEntry) (instances : list JsValue)
          (c : Console),
      fo_plugins entry = Some plugins ->
      Forall2 (fun plugin instance => loadPlugin plugin = Returns instance)
        plugins instances ->
      requireCssModule depth path options c =
        getTokens
          (postcss (map Extra instances ++
                    [Values; LocalByDefault; ExtractImports; Scope generate;
                     Parser (fetch depth instances generate (Val entry))]))
          path (Val entry) c) /\
  getSyntax (Val entry) =
    match fo_syntax entry with
    | Some module =>
        if String.eqb module "" then Returns Null
        else loaded ← require module; Returns (Val loaded)
    | None => Returns Null
    end /\
  prepareSource path (Val entry) =
    (src ← readFileSync path;
     syntaxObject ← getSyntax (Val entry);
     Returns (src, {| from := path; syntax := Some syntaxObject |})).
Proof.
  intros path generate Hdot Hft Hentry.
  assert (Hidx : JsString.lastIndexOf path "." = -1)
    by now apply lastIndexOf_absent.
  assert (Hext : JsString.substr path (JsString.lastIndexOf path ".")
                 = String last "")
    by (rewrite Hidx; apply substr_minus_one).
  assert (Hfo : getFiletypeOptions path (filetypes options) = Val entry).
  { unfold getFiletypeOptions, getProperty. now rewrite Hft, Hext, Hentry. }
  assert (Hcall : requireCssModule depth path options =
    (extraPlugins ← lift (getExtraPlugins (Val entry));
     getTokens
       (postcss (map Extra extraPlugins ++
                 [Values; LocalByDefault; ExtractImports; Scope generate;
                  Parser (fetch depth extraPlugins generate (Val entry))]))
       path (Val entry))).
  { unfold requireCssModule. now rewrite Hfo. }
  split; [exact Hidx|]. split; [exact Hext|]. split; [exact Hfo|].
  split; [reflexivity|]. split; [exact Hcall|]. split; [|split].
  - intros plugins instances c Hplugins Hloaded.
    assert (Hextra : getExtraPlugins (Val entry) = Returns instances).
    { unfold getExtraPlugins. rewrite Hplugins. now apply mapM_returns. }
    rewrite Hcall. unfold mbind, M_bind, lift at 1. now rewrite Hextra.
  - reflexivity.
  - rewrite prepareSource_plain; [reflexivity|].
    now apply dotless_not_stylus.
Qed.

(** C7.  When the mapping is absent or has no entry under the key the
    resolver computes, the resolver's answer is falsy, the extra-plugin
    list is empty and is obtained without loading anything, the pipeline
    of the call is the five baseline stages, and the source is prepared
    without loading or setting a syntax. *)
Theorem unmatched_extension_runs_baseline
    (depth : nat) path options :
  (forall ft : gmap string FiletypeOptionsType,
      filetypes options = Some ft ->
      ft !! JsString.substr path (JsString.lastIndexOf path ".") = None) ->
  let filetypeOptions := getFiletypeOptions path (filetypes options) in
  let generate := scopedNameGenerator options in
  isPresent filetypeOptions = false /\
  getExtraPlugins filetypeOptions = Returns [] /\
  requireCssModule depth path options =
    getTokens
      (postcss [Values; LocalByDefault; ExtractImports; Scope generate;
                Parser (fetch depth [] generate filetypeOptions)])
      path filetypeOptions /\
  prepareSource path filetypeOptions =
    (src ← readFileSync path;
     if isStylusPath path then
       compiler ← stylusCompiler path src;
       res ← renderStylus compiler;
       Returns (res, {| from := path; syntax := None |})
     else Returns (src, {| from := path; syntax := None |})) /\
  (forall (src : string) (processOptions : ProcessOptions),
      prepareSource path filetypeOptions = Returns (src, processOptions) ->
      syntax processOptions = None).
Proof.
  intros Hmiss filetypeOptions generate.
  assert (Habsent : isPresent filetypeOptions = false).
  { subst filetypeOptions. unfold getFiletypeOptions, getProperty.
    destruct (filetypes options) as [ft|]; [|reflexivity].
    now rewrite (Hmiss ft eq_refl). }
  assert (Hextra : getExtraPlugins filetypeOptions = Returns []).
  { destruct filetypeOptions; [reflexivity..|discriminate]. }
  assert (Hprep : prepareSource path filetypeOptions =
    (src ← readFileSync path;
     if isStylusPath path then
       compiler ← stylusCompiler path src;
       res ← renderStylus compiler;
       Returns (res, {| from := path; syntax := None |})
     else Returns (src, {| from := path; syntax := None |}))).
  { unfold prepareSource. now rewrite Habsent. }
  repeat split; try assumption.
  - unfold requireCssModule. fold filetypeOptions generate.
    now rewrite Hextra.
  - intros src processOptions Hret. rewrite Hprep in Hret.
    unfold mbind, outcome_bind in Hret.
    destruct (readFileSync path) as [raw|]; [|discriminate].
    destruct (isStylusPath path).
    + destruct (stylusCompiler path raw) as [compiler|]; [|discriminate].
      destruct (renderStylus compiler); [|discriminate].
      now inversion Hret.
    + now inversion Hret.
Qed.

(** C10.  For a path ending in [.styl] the resolver's key is [.styl];
    with an entry under that key, the entry's plugins are loaded and put
    in front of the baseline stages of the call's pipeline, while the
    source is prepared by the stylus branch, which leaves the syntax
    option unset and never reads the entry. *)
Theorem stylus_entry_keeps_extra_plugins
    (stem : string) (depth : nat) options
    (ft : gmap string FiletypeOptionsType) (entry : FiletypeOptionsType) :
  let path := stem +:+ ".styl" in
  let generate := scopedNameGenerator options in
  filetypes options = Some ft ->
  ft !! ".styl" = Some entry ->
  getFiletypeOptions path (filetypes options) = Val entry /\
  getExtraPlugins (Val entry) =
    match fo_plugins entry with
    | Some plugins => mapM loadPlugin plugins
    | None => Returns []
    end /\
  requireCssModule depth path options =
    (extraPlugins ← lift (getExtraPlugins (Val entry));
     getTokens
       (postcss (map Extra extraPlugins ++
                 [Values; LocalByDefault; ExtractImports; Scope generate;
                  Parser (fetch depth extraPlugins generate (Val entry))]))
       path (Val entry)) /\
  prepareSource path (Val entry) =
    (src ← readFileSync path;
     compiler ← stylusCompiler path src;
     res ← renderStylus compiler;
     Returns (res, {| from := path; syntax := None |})).
Proof.
  intros path generate Hft Hentry.
  assert (Hfo : getFiletypeOptions path (filetypes options) = Val entry).
  { unfold getFiletypeOptions, getProperty, path.
    rewrite (extension_after_last_dot stem "styl" eq_refl).
    now rewrite Hft, Hentry. }
  repeat split; try assumption.
  - unfold requireCssModule. now rewrite Hfo.
  - apply prepareSource_stylus. apply testLiteralAtEnd_append.
Qed.

(** C4.  On a path matching [/\.styl$/] the source is read, compiled by
    stylus and handed on with the syntax option unset, whatever the
    filetype options are.  Whenever a source is prepared, its syntax
    option is set exactly when the path is not a stylus path and filetype
    options were resolved; on a stylus path the prepared text is the
    compiler's output. *)
Theorem stylus_branch_excludes_syntax path filetypeOptions :
  (isStylusPath path = true ->
   prepareSource path filetypeOptions =
     (src ← readFileSync path;
      compiler ← stylusCompiler path src;
      res ← renderStylus compiler;
      Returns (res, {| from := path; syntax := None |}))) /\
  (forall (src : string) (processOptions : ProcessOptions),
      prepareSource path filetypeOptions = Returns (src, processOptions) ->
      (syntax processOptions <> None <->
       isStylusPath path = false /\ isPresent filetypeOptions = true) /\
      (isStylusPath path = true ->
       exists (raw : string) (compiler : StylusRenderer),
         readFileSync path = Returns raw /\
         stylusCompiler path raw = Returns compiler /\
         stylusRender compiler = inr src)).
Proof.
  split; [apply prepareSource_stylus|].
  intros src processOptions Hret. unfold prepareSource in Hret.
  unfold mbind, outcome_bind in Hret.
  destruct (readFileSync path) as [raw|] eqn:Hread; [|discriminate].
  destruct (isStylusPath path).
  - destruct (stylusCompiler path raw) as [compiler|] eqn:Hcompiler;
      [|discriminate].
    unfold renderStylus in Hret.
    destruct (stylusRender compiler) as [err|res] eqn:Hrender; [discriminate|].
    inversion Hret; subst. cbn. split.
    + split; [congruence|]. intros [? _]. discriminate.
    + intros _. now exists raw, compiler.
  - destruct (isPresent filetypeOptions).
    + destruct (getSyntax filetypeOptions); [|discriminate].
      inversion Hret; subst. cbn. split; [|discriminate].
      split; [easy|]. intros _. discriminate.
    + inversion Hret; subst. cbn. split; [|discriminate].
      split; [congruence|]. intros [_ ?]. discriminate.
Qed.

Lemma errorToString_carries_message (err : JsError) :
  exists before after : string,
    errorToString err = before +:+ message err +:+ after.
Proof.
  unfold errorToString.
  destruct (String.eqb_spec (name err) "") as [_|_].
  - exists "", "". now rewrite append_nil, append_nil_r.
  - destruct (String.eqb_spec (message err) "") as [->|_].
    + exists (name err), "". now rewrite append_nil, append_nil_r.
    + exists (name err +:+ ": "), "".
      now rewrite append_nil_r, append_assoc.
Qed.

(** C5.  When stylus reports a compile error for a [.styl] source, the
    extraction throws without touching the console: the thrown object is
    a plain [Error] whose message is the compiler error converted to a
    string, and that string contains the compiler's message.  The
    top-level call fails the same way once its extra plugins loaded. *)
Theorem stylus_error_wrapped_and_thrown
    (runner : Processor) path filetypeOptions
    (raw : string) (compiler : StylusRenderer) (err : JsError)
    (c : Console) :
  isStylusPath path = true ->
  readFileSync path = Returns raw ->
  stylusCompiler path raw = Returns compiler ->
  stylusRender compiler = inl err ->
  getTokens runner path filetypeOptions c = (Throws (newErrorFrom err), c) /\
  name (newErrorFrom err) = "Error" /\
  (exists before after : string,
      message (newErrorFrom err) = before +:+ message err +:+ after) /\
  (forall (depth : nat) options (extraPlugins : list JsValue),
      getExtraPlugins (getFiletypeOptions path (filetypes options))
        = Returns extraPlugins ->
      requireCssModule depth path options c
        = (Throws (newErrorFrom err), c)).
Proof.
  intros Hstyl Hread Hcompiler Hrender.
  assert (Hprep : forall fo, prepareSource path fo = Throws (newErrorFrom err)).
  { intros fo. rewrite prepareSource_stylus by assumption.
    unfold mbind, outcome_bind. rewrite Hread, Hcompiler.
    unfold renderStylus. now rewrite Hrender. }
  split; [now apply getTokens_prepare_throws|].
  split; [reflexivity|].
  split; [apply errorToString_carries_message|].
  intros depth options extraPlugins Hextra.
  unfold requireCssModule, mbind, M_bind, lift at 1. rewrite Hextra.
  now apply getTokens_prepare_throws.
Qed.

(** C6.  Whenever the source is prepared and the pipeline returns a lazy
    result, however many warnings it holds, the extraction returns
    exactly the tokens of that result; the only trace of the warnings is
    their texts, appended in order to the console. *)
Theorem warnings_go_to_console_only
    (runner : Processor) path filetypeOptions
    (src : string) (processOptions : ProcessOptions)
    (lazyResult : LazyResult) (c c' : Console) :
  prepareSource path filetypeOptions = Returns (src, processOptions) ->
  postcssProcess runner src processOptions c = (Returns lazyResult, c') ->
  getTokens runner path filetypeOptions c =
    (Returns (root_tokens lazyResult),
     (c' ++ map text (warnings lazyResult))%list).
Proof.
  intros Hprep Hrun.
  rewrite (getTokens_prepared _ _ _ _ _ _ Hprep). now rewrite Hrun.
Qed.

(** C3.  A [generateScopedName] that is a function is the generator
    itself, on every host and hence whatever the host's factory
    [genericNames] is: each (local name, file) pair is named by the
    function, and the function is what the call hands to the [Scope]
    stage.  Otherwise the generator is the factory's, built from the
    supplied pattern, or the default one when the pattern is missing or
    empty, and from [options.context], or the working directory when the
    context is missing or empty. *)
Theorem scoped_name_generator_choice options :
  (forall f : ScopedNameFn,
      generateScopedName options = Some (NamingFunction f) ->
      (forall anyHost : @Host JsValue,
          @scopedNameGenerator JsValue anyHost options = f) /\
      (forall localName file css : string,
          scopedNameGenerator options localName file css
            = f localName file css) /\
      (forall (depth : nat) path,
          let filetypeOptions :=
            getFiletypeOptions path (filetypes options) in
          requireCssModule depth path options =
            (extraPlugins ← lift (getExtraPlugins filetypeOptions);
             getTokens
               (postcss (map Extra extraPlugins ++
                         [Values; LocalByDefault; ExtractImports; Scope f;
                          Parser (fetch depth extraPlugins f
                                    filetypeOptions)]))
               path filetypeOptions))) /\
  (forall pattern directory : string,
      (generateScopedName options = Some (NamingPattern pattern) /\
         pattern <> ""
       \/ (generateScopedName options = None \/
           generateScopedName options = Some (NamingPattern "")) /\
          pattern = optionsDefaults_generateScopedName) ->
      (context options = Some directory /\ directory <> ""
       \/ (context options = None \/ context options = Some "") /\
          directory = cwd) ->
      scopedNameGenerator options = genericNames pattern directory).
Proof.
  split.
  - intros f Hf.
    assert (Hany : forall anyHost : @Host JsValue,
               @scopedNameGenerator JsValue anyHost options = f).
    { intros anyHost. unfold scopedNameGenerator. now rewrite Hf. }
    split; [exact Hany|]. split.
    + intros localName file css. now rewrite Hany.
    + intros depth path filetypeOptions. unfold requireCssModule.
      fold filetypeOptions. now rewrite (Hany host).
  - intros pattern directory Hpattern Hdirectory.
    unfold scopedNameGenerator.
    assert (Hctx : match context options with
                   | Some dir => if String.eqb dir "" then cwd else dir
                   | None => cwd
                   end = directory).
    { destruct Hdirectory as [[-> Hne]|[[-> | ->] ->]]; try reflexivity.
      now destruct (String.eqb_spec directory ""). }
    rewrite Hctx.
    destruct Hpattern as [[-> Hne]|[[-> | ->] ->]]; try reflexivity.
    now destruct (String.eqb_spec pattern "").
Qed.

(** C1.  The fetch function that the top-level call for [top] puts into
    the [Parser] stage resolves [to] against the directory of the
    importing file and extracts the tokens of the resulting path with the
    filetype options resolved for [top]; the runner it uses holds a fetch
    function closed over those same options, so every transitive import
    sees them too.  Hence, for an imported file that is not a stylus
    path, whether and which syntax is set depends on [top]'s options and
    not on the imported path. *)
Theorem fetch_reuses_top_level_filetype_options
    (depth : nat) (top : string) options :
  let filetypeOptions := getFiletypeOptions top (filetypes options) in
  let generate := scopedNameGenerator options in
  requireCssModule (S depth) top options =
    (extraPlugins ← lift (getExtraPlugins filetypeOptions);
     getTokens
       (postcss (pipeline extraPlugins generate
                   (fetch (S depth) extraPlugins generate filetypeOptions)))
       top filetypeOptions) /\
  (forall (extraPlugins : list JsValue) (to from : string),
      let toPath := resolve (dirname from) to in
      fetch (S depth) extraPlugins generate filetypeOptions to from =
        getTokens
          (postcss (pipeline extraPlugins generate
                      (fetch depth extraPlugins generate filetypeOptions)))
          toPath filetypeOptions /\
      (isStylusPath toPath = false ->
       prepareSource toPath filetypeOptions =
         (src ← readFileSync toPath;
          if isPresent filetypeOptions then
            syntaxObject ← getSyntax filetypeOptions;
            Returns (src, {| from := toPath; syntax := Some syntaxObject |})
          else Returns (src, {| from := toPath; syntax := None |})))).
Proof.
  intros filetypeOptions generate. split; [reflexivity|].
  intros extraPlugins to from toPath. split; [reflexivity|].
  apply prepareSource_plain.
Qed.

Lemma fetch_without_stack (extraPlugins : list JsValue)
    (generate : ScopedNameFn) filetypeOptions (to from : string) :
  overflows (fetch 0 extraPlugins generate filetypeOptions to from).
Proof. intros c. now exists c. Qed.

Lemma getTokens_overflows (runner : Processor) path filetypeOptions
    (src : string) (processOptions : ProcessOptions) :
  prepareSource path filetypeOptions = Returns (src, processOptions) ->
  overflows (postcssProcess runner src processOptions) ->
  overflows (getTokens runner path filetypeOptions).
Proof.
  intros Hprep Hrun c. destruct (Hrun c) as [c' Hc'].
  exists c'. rewrite (getTokens_prepared _ _ _ _ _ _ Hprep). now rewrite Hc'.
Qed.

Lemma prepareSource_from path filetypeOptions
    (src : string) (processOptions : ProcessOptions) :
  prepareSource path filetypeOptions = Returns (src, processOptions) ->
  from processOptions = path.
Proof.
  unfold prepareSource, mbind, outcome_bind. intros Hret.
  destruct (readFileSync path) as [raw|]; [|discriminate].
  destruct (isStylusPath path).
  - destruct (stylusCompiler path raw) as [compiler|]; [|discriminate].
    destruct (renderStylus compiler); [|discriminate]. now inversion Hret.
  - destruct (isPresent filetypeOptions).
    + destruct (getSyntax filetypeOptions); [|discriminate].
      now inversion Hret.
    + now inversion Hret.
Qed.

(** C8.  Take two files that compose from each other: each one's text is
    prepared, and the pipeline run on it asks for the other.  The fetch
    function consults nothing before recursing, so for every stack depth
    the top-level call on either file ends in the stack-depth error: no
    depth suffices for a normal return. *)
Theorem mutual_composes_exhausts_stack
    options (fileA fileB toA toB srcA srcB : string)
    (optionsA optionsB : ProcessOptions) (extraPlugins : list JsValue) :
  let filetypeOptions := getFiletypeOptions fileA (filetypes options) in
  let generate := scopedNameGenerator options in
  getExtraPlugins filetypeOptions = Returns extraPlugins ->
  resolve (dirname fileA) toB = fileB ->
  resolve (dirname fileB) toA = fileA ->
  prepareSource fileA filetypeOptions = Returns (srcA, optionsA) ->
  prepareSource fileB filetypeOptions = Returns (srcB, optionsB) ->
  composesFrom extraPlugins generate srcA optionsA toB ->
  composesFrom extraPlugins generate srcB optionsB toA ->
  forall depth : nat, overflows (requireCssModule depth fileA options).
Proof.
  intros filetypeOptions generate Hextra HtoB HtoA HprepA HprepB HA HB.
  pose proof (prepareSource_from _ _ _ _ HprepA) as HfromA.
  pose proof (prepareSource_from _ _ _ _ HprepB) as HfromB.
  set (runner := fun depth : nat =>
         postcss (pipeline extraPlugins generate
                    (fetch depth extraPlugins generate filetypeOptions))).
  assert (Hboth : forall depth,
             overflows (getTokens (runner depth) fileA filetypeOptions) /\
             overflows (getTokens (runner depth) fileB filetypeOptions)).
  { induction depth as [|depth [IHA IHB]].
    - split.
      + apply (getTokens_overflows _ _ _ _ _ HprepA), HA.
        apply fetch_without_stack.
      + apply (getTokens_overflows _ _ _ _ _ HprepB), HB.
        apply fetch_without_stack.
    - split.
      + apply (getTokens_overflows _ _ _ _ _ HprepA), HA.
        rewrite HfromA. cbn [fetch]. rewrite HtoB. exact IHB.
      + apply (getTokens_overflows _ _ _ _ _ HprepB), HB.
        rewrite HfromB. cbn [fetch]. rewrite HtoA. exact IHA. }
  intros depth c. destruct (proj1 (Hboth depth) c) as [c' Hc'].
  exists c'. unfold requireCssModule, mbind, M_bind, lift at 1.
  fold filetypeOptions generate. rewrite Hextra. exact Hc'.
Qed.

End Properties.

(** ** The statements at work on the small host *)

Lemma getFiletypeOptions_by_extension_witness :
  JsString.occurs "." "scss" = false /\
  @getFiletypeOptions string "/app/main.scss" (filetypes Demo.options)
    = Val Demo.scssOptions.
Proof.
  split; [reflexivity|].
  destruct (getFiletypeOptions_by_extension (JsValue := string)
              "/app/main" "scss" (filetypes Demo.options) eq_refl)
    as (_ & Hrecord & _).
  etransitivity; [exact Hrecord|]. vm_compute. reflexivity.
Defined.

Lemma dotless_path_keyed_by_last_character_witness :
  JsString.occurs "." "/app/Makefile" = false /\
  @getFiletypeOptions string "/app/Makefile" (filetypes Demo.options)
    = Val Demo.scssOptions /\
  @getExtraPlugins string DemoStages.host (Val Demo.scssOptions)
    = Returns ["postcss-nested"; "autoprefixer({})"] /\
  @requireCssModule string DemoStages.host 3 "/app/Makefile" Demo.options []
    = (Returns {[ "all" := "_all" ]},
       ["postcss-nested"; "autoprefixer({})"; "values"; "local-by-default";
        "extract-imports"; "scope"; "parser"; " syntax postcss-scss"]) /\
  @prepareSource string DemoStages.host "/app/Makefile"
    (Val Demo.scssOptions)
    = Returns ("all", {| from := "/app/Makefile";
                         syntax := Some (Val "postcss-scss") |}).
Proof.
  split; [reflexivity|].
  destruct (dotless_path_keyed_by_last_character (host := DemoStages.host)
              "/app/Makefil" "e" 3 Demo.options
              {[ ".scss" := Demo.scssOptions; ".styl" := Demo.scssOptions;
                 "e" := Demo.scssOptions ]}
              Demo.scssOptions eq_refl eq_refl)
    as (_ & _ & Hrecord & Hextra & _ & Hcall & _ & Hprepare);
    [vm_compute; reflexivity|].
  split; [exact Hrecord|]. split; [|split].
  - etransitivity; [exact Hextra|]. vm_compute. reflexivity.
  - etransitivity.
    + apply (Hcall [PluginName "postcss-nested";
                    PluginWithOptions "autoprefixer" "{}"]
                   ["postcss-nested"; "autoprefixer({})"] []);
        [reflexivity|repeat constructor].
    + vm_compute. reflexivity.
  - etransitivity; [exact Hprepare|]. vm_compute. reflexivity.
Defined.

Lemma unmatched_extension_runs_baseline_witness :
  @getExtraPlugins string Demo.host
    (getFiletypeOptions "/app/button.css" (filetypes Demo.options))
    = Returns [] /\
  @prepareSource string Demo.host "/app/button.css"
    (getFiletypeOptions "/app/button.css" (filetypes Demo.options))
    = Returns ("button", {| from := "/app/button.css"; syntax := None |}).
Proof.
  destruct (unmatched_extension_runs_baseline (host := Demo.host)
              3 "/app/button.css" Demo.options)
    as (_ & Hextra & _ & Hprepare & _).
  - intros ft Hft. injection Hft as <-. vm_compute. reflexivity.
  - split; [exact Hextra|].
    etransitivity; [exact Hprepare|]. vm_compute. reflexivity.
Defined.

Lemma stylus_entry_keeps_extra_plugins_witness :
  @getFiletypeOptions string "/app/theme.styl" (filetypes Demo.options)
    = Val Demo.scssOptions /\
  @getExtraPlugins string Demo.host (Val Demo.scssOptions)
    = Returns ["postcss-nested"; "autoprefixer({})"] /\
  @prepareSource string Demo.host "/app/theme.styl" (Val Demo.scssOptions)
    = Returns ("theme", {| from := "/app/theme.styl"; syntax := None |}).
Proof.
  destruct (stylus_entry_keeps_extra_plugins (host := Demo.host)
              "/app/theme" 3 Demo.options
              {[ ".scss" := Demo.scssOptions; ".styl" := Demo.scssOptions;
                 "e" := Demo.scssOptions ]}
              Demo.scssOptions eq_refl)
    as (Hrecord & Hextra & _ & Hprepare); [vm_compute; reflexivity|].
  split; [exact Hrecord|]. split.
  - etransitivity; [exact Hextra|]. vm_compute. reflexivity.
  - etransitivity; [exact Hprepare|]. vm_compute. reflexivity.
Defined.

Lemma stylus_branch_excludes_syntax_witness :
  @isStylusPath "/app/theme.styl" = true /\
  @prepareSource string Demo.host "/app/theme.styl" (Val Demo.scssOptions)
    = Returns ("theme", {| from := "/app/theme.styl"; syntax := None |}).
Proof.
  split; [reflexivity|].
  etransitivity.
  - exact (proj1 (stylus_branch_excludes_syntax (host := Demo.host)
                    "/app/theme.styl" (Val Demo.scssOptions)) eq_refl).
  - vm_compute. reflexivity.
Defined.

Lemma stylus_error_wrapped_and_thrown_witness :
  @stylusRender string Demo.host
    {| str := "}";
       calls := [StylusSet "filename" "/app/broken.styl";
                 StylusDefine "__WEB__" true] |}
    = inl Demo.unexpectedBrace /\
  @requireCssModule string Demo.host 3 "/app/broken.styl" Demo.options []
    = (Throws {| name := "Error"; message := "ParseError: unexpected }" |},
       []).
Proof.
  split; [reflexivity|].
  destruct (stylus_error_wrapped_and_thrown (host := Demo.host)
              (postcss []) "/app/broken.styl" Undefined "}"
              {| str := "}";
                 calls := [StylusSet "filename" "/app/broken.styl";
                           StylusDefine "__WEB__" true] |}
              Demo.unexpectedBrace [] eq_refl eq_refl eq_refl eq_refl)
    as (_ & _ & _ & Htop).
  apply (Htop 3%nat Demo.options ["postcss-nested"; "autoprefixer({})"]).
  vm_compute. reflexivity.
Defined.

Lemma warnings_go_to_console_only_witness :
  @getTokens string Demo.host (postcss []) "/app/button.css" Undefined
    ["earlier line"]
  = (Returns {[ "button" := "button" ]},
     ["earlier line"; "/app/button.css syntax unset"]).
Proof.
  etransitivity.
  - apply (warnings_go_to_console_only (host := Demo.host)
             (postcss []) "/app/button.css" Undefined "button"
             {| from := "/app/button.css"; syntax := None |}
             {| warnings := [{| text := "/app/button.css syntax unset" |}];
                root_tokens := {[ "button" := "button" ]} |}
             ["earlier line"] ["earlier line"]);
      vm_compute; reflexivity.
  - reflexivity.
Defined.

Lemma scoped_name_generator_choice_witness :
  @scopedNameGenerator string Demo.host Demo.options
    "button" "/app/button.css" "button" = "_button".
Proof.
  destruct (proj1 (scoped_name_generator_choice (host := Demo.host)
                     Demo.options)
              (fun localName _ _ => "_" +:+ localName) eq_refl)
    as (_ & Hnames & _).
  etransitivity; [apply Hnames|]. reflexivity.
Defined.

Lemma fetch_reuses_top_level_filetype_options_witness :
  @fetch string Demo.host 2 []
    (@scopedNameGenerator string Demo.host Demo.options)
    (getFiletypeOptions "/app/main.scss" (filetypes Demo.options))
    "button.css" "/app/main.scss" []
  = (Returns {[ "button" := "_button" ]},
     ["/app/button.css syntax postcss-scss"]).
Proof.
  destruct (proj2 (fetch_reuses_top_level_filetype_options
                     (host := Demo.host) 1 "/app/main.scss" Demo.options)
              [] "button.css" "/app/main.scss") as [Hfetch _].
  rewrite Hfetch. vm_compute. reflexivity.
Defined.

Lemma mutual_composes_exhausts_stack_witness :
  exists c' : Console,
    @requireCssModule string Demo.host 1000 "/app/a.css" Demo.options []
    = (Throws stackOverflow, c').
Proof.
  refine (mutual_composes_exhausts_stack (host := Demo.host) Demo.options
            "/app/a.css" "/app/b.css" "a.css" "b.css" "@b.css" "@a.css"
            {| from := "/app/a.css"; syntax := None |}
            {| from := "/app/b.css"; syntax := None |} []
            _ _ _ _ _ _ _ 1000%nat []);
    try (vm_compute; reflexivity).
  - intros fetch Hfetch c. destruct (Hfetch c) as [c' Hc']. exists c'.
    cbn in Hc' |- *. unfold Demo.process, mbind, M_bind. cbn.
    now rewrite Hc'.
  - intros fetch Hfetch c. destruct (Hfetch c) as [c' Hc']. exists c'.
    cbn in Hc' |- *. unfold Demo.process, mbind, M_bind. cbn.
    now rewrite Hc'.
Defined.

(** ** Further properties of the string tests *)

Section KeyAndDialect.
Context {JsValue : Type}.

Lemma occurs_split (c : ascii) (s : string) :
  JsString.occurs c s = true ->
  exists stem rest : string,
    s = stem +:+ String c rest /\ JsString.occurs c rest = false.
Proof.
  induction s as [|a s IH]; [discriminate|]. cbn [JsString.occurs].
  destruct (JsString.occurs c s) eqn:Hlater.
  - intros _. destruct (IH eq_refl) as (stem & rest & -> & Hrest).
    now exists (String a stem), rest.
  - rewrite orb_false_r. intros ->%Ascii.eqb_eq. now exists "", s.
Qed.

Lemma nonempty_snoc (a : ascii) (s : string) :
  exists (init : string) (last : ascii),
    String a s = init +:+ String last "".
Proof.
  revert a. induction s as [|b s IH]; intros a.
  - now exists "", a.
  - destruct (IH b) as (init & last & ->). now exists (String a init), last.
Qed.

(** X1.  The key under which the resolver looks is always a suffix of the
    path.  With a dot in the path it starts at the last dot; without one
    it is a single code unit, except for the empty path whose key is
    empty.  In particular an entry stored under the empty key can match
    the empty path only. *)
Theorem resolver_key_is_a_suffix
    (path : string) (ft : gmap string (@FiletypeOptionsType JsValue)) :
  let key := JsString.substr path (JsString.lastIndexOf path ".") in
  getFiletypeOptions path (Some ft) = getProperty ft key /\
  (exists stem : string, path = stem +:+ key) /\
  (if JsString.occurs "." path
   then exists rest : string,
          key = String "." rest /\ JsString.occurs "." rest = false
   else JsString.size key = Z.min 1 (JsString.size path)) /\
  (key = "" <-> path = "").
Proof.
  intros key. split; [reflexivity|].
  destruct (JsString.occurs "." path) eqn:Hdot.
  - destruct (occurs_split _ _ Hdot) as (stem & rest & Hpath & Hrest).
    assert (Hkey : key = String "." rest).
    { subst key. rewrite Hpath. now apply extension_after_last_dot. }
    split; [exists stem; now rewrite Hkey|].
    split; [now exists rest|].
    rewrite Hkey, Hpath. split; [discriminate|].
    destruct stem; discriminate.
  - destruct path as [|a s].
    + split; [now exists ""|]. split; reflexivity.
    + destruct (nonempty_snoc a s) as (init & last & Hpath).
      assert (Hkey : key = String last "").
      { subst key. rewrite lastIndexOf_absent by assumption.
        rewrite Hpath. apply substr_minus_one. }
      split; [exists init; now rewrite Hkey|].
      split.
      * rewrite Hkey, !size_cons. pose proof (size_nonneg s).
        change (JsString.size "") with 0. lia.
      * rewrite Hkey. split; discriminate.
Qed.

(** X2.  The dialect test of [getTokens] holds exactly for the paths that
    end in [.styl]; the name [.styl] alone passes, and nothing may follow
    the extension. *)
Theorem isStylusPath_iff_suffix (path : string) :
  isStylusPath path = true <-> exists stem : string, path = stem +:+ ".styl".
Proof.
  unfold isStylusPath. split.
  - apply testLiteralAtEnd_suffix.
  - intros [stem ->]. apply testLiteralAtEnd_append.
Qed.

End KeyAndDialect.

(** ** Loading, failing and composing *)

Section Loading.
Context {JsValue : Type} {host : @Host JsValue}.

Implicit Types (path : string) (options : @OptionsType JsValue).
Implicit Types (filetypeOptions : Nullable (@FiletypeOptionsType JsValue)).
Implicit Types (entry : @FiletypeOptionsType JsValue).

(** X3.  For an entry that lists plugins, the loader returns a list
    exactly when every listed plugin loads, and then the instances are
    those of the entries, one for one and in the order listed. *)
Theorem extra_plugins_loaded_in_order
    entry (entries : list PluginEntry) (instances : list JsValue) :
  fo_plugins entry = Some entries ->
  (getExtraPlugins (Val entry) = Returns instances <->
   Forall2 (fun plugin instance => loadPlugin plugin = Returns instance)
     entries instances).
Proof.
  intros Hentries. unfold getExtraPlugins. rewrite Hentries.
  apply mapM_returns.
Qed.

(** X4.  When the plugins before one entry load and that entry does not,
    the loader throws that entry's load error whatever follows it in the
    list, and the top-level call throws it too, leaving the console as it
    was: the source file is not read and the pipeline is not run. *)
Theorem first_failing_plugin_stops_the_call
    (depth : nat) path options entry
    (before after : list PluginEntry) (failing : PluginEntry)
    (loaded : list JsValue) (e : JsError) (c : Console) :
  getFiletypeOptions path (filetypes options) = Val entry ->
  fo_plugins entry = Some (before ++ failing :: after)%list ->
  Forall2 (fun plugin instance => loadPlugin plugin = Returns instance)
    before loaded ->
  loadPlugin failing = Throws e ->
  getExtraPlugins (Val entry) = Throws e /\
  requireCssModule depth path options c = (Throws e, c).
Proof.
  intros Hresolved Hentries Hbefore Hfailing.
  assert (Hload : getExtraPlugins (Val entry) = Throws e).
  { unfold getExtraPlugins. rewrite Hentries.
    now apply mapM_throws_first with (loaded := loaded). }
  split; [exact Hload|].
  unfold requireCssModule, mbind, M_bind, lift at 1.
  now rewrite Hresolved, Hload.
Qed.

(** X5.  A source file that cannot be read makes the extraction throw the
    reader's error with the console untouched, whatever the kind of path
    and the filetype options; so does a fetch whose target resolves to
    that file, and so does the top-level call once its plugins loaded. *)
Theorem read_error_reaches_caller
    (runner : Processor) path filetypeOptions (e : JsError) (c : Console) :
  readFileSync path = Throws e ->
  getTokens runner path filetypeOptions c = (Throws e, c) /\
  (forall (depth : nat) (extraPlugins : list JsValue)
          (generate : ScopedNameFn) (to from : string),
      resolve (dirname from) to = path ->
      fetch (S depth) extraPlugins generate filetypeOptions to from c
        = (Throws e, c)) /\
  (forall (depth : nat) options (extraPlugins : list JsValue),
      getExtraPlugins (getFiletypeOptions path (filetypes options))
        = Returns extraPlugins ->
      requireCssModule depth path options c = (Throws e, c)).
Proof.
  intros Hread.
  assert (Hprep : forall fo, prepareSource path fo = Throws e).
  { intros fo. unfold prepareSource, mbind, outcome_bind. now rewrite Hread. }
  split; [now apply getTokens_prepare_throws|]. split.
  - intros depth extraPlugins generate to from Hto. cbn [fetch].
    rewrite Hto. now apply getTokens_prepare_throws.
  - intros depth options extraPlugins Hextra.
    unfold requireCssModule, mbind, M_bind, lift at 1. rewrite Hextra.
    now apply getTokens_prepare_throws.
Qed.

(** X6.  On a path that is not a stylus path, an entry naming a syntax
    module that fails to load makes the extraction throw the loader's
    error, console untouched and whatever the runner: the pipeline is not
    run. *)
Theorem syntax_load_error_reaches_caller
    (runner : Processor) path entry (module src : string)
    (e : JsError) (c : Console) :
  isStylusPath path = false ->
  readFileSync path = Returns src ->
  fo_syntax entry = Some module ->
  module <> "" ->
  require module = Throws e ->
  getSyntax (Val entry) = Throws e /\
  getTokens runner path (Val entry) c = (Throws e, c).
Proof.
  intros Hplain Hread Hsyntax Hname Hload.
  assert (Hget : getSyntax (Val entry) = Throws e).
  { unfold getSyntax. rewrite Hsyntax.
    destruct (String.eqb_spec module ""); [contradiction|].
    unfold mbind, outcome_bind. now rewrite Hload. }
  split; [exact Hget|].
  apply getTokens_prepare_throws. rewrite prepareSource_plain by assumption.
  unfold mbind, outcome_bind. rewrite Hread. cbn [isPresent]. now rewrite Hget.
Qed.

(** X7.  On a path that is not a stylus path, an entry without a syntax,
    or with the empty string for one, still assigns the syntax option:
    the pipeline receives it as [null], not unset, and no module is
    loaded for it, so a failing loader cannot disturb the preparation. *)
Theorem entry_without_syntax_sets_null
    path entry (src : string) :
  isStylusPath path = false ->
  readFileSync path = Returns src ->
  fo_syntax entry = None \/ fo_syntax entry = Some "" ->
  getSyntax (Val entry) = Returns Null /\
  prepareSource path (Val entry) =
    Returns (src, {| from := path; syntax := Some Null |}).
Proof.
  intros Hplain Hread Hsyntax.
  assert (Hget : getSyntax (Val entry) = Returns Null).
  { unfold getSyntax. now destruct Hsyntax as [-> | ->]. }
  split; [exact Hget|].
  rewrite prepareSource_plain by assumption.
  unfold mbind, outcome_bind. rewrite Hread. cbn [isPresent]. now rewrite Hget.
Qed.

(** X8.  Whatever is prepared for the pipeline names the extracted file
    as [from], and its syntax option is either unset or the value
    [getSyntax] returned for the filetype options in force. *)
Theorem prepared_options_name_the_file
    path filetypeOptions (src : string) (processOptions : ProcessOptions) :
  prepareSource path filetypeOptions = Returns (src, processOptions) ->
  from processOptions = path /\
  (syntax processOptions = None \/
   exists syntaxObject : Nullable JsValue,
     getSyntax filetypeOptions = Returns syntaxObject /\
     syntax processOptions = Some syntaxObject).
Proof.
  intros Hret. split; [now apply prepareSource_from in Hret|].
  unfold prepareSource, mbind, outcome_bind in Hret.
  destruct (readFileSync path) as [raw|]; [|discriminate].
  destruct (isStylusPath path).
  - destruct (stylusCompiler path raw) as [compiler|]; [|discriminate].
    destruct (renderStylus compiler); [|discriminate].
    inversion Hret. now left.
  - destruct (isPresent filetypeOptions).
    + destruct (getSyntax filetypeOptions) as [syntaxObject|]; [|discriminate].
      inversion Hret. right. now exists syntaxObject.
    + inversion Hret. now left.
Qed.

End Loading.

(** ** The stylus branch and the call as a whole *)

Section Dialect.
Context {JsValue : Type} {host : @Host JsValue}.

Implicit Types (path : string) (options : @OptionsType JsValue).
Implicit Types (filetypeOptions : Nullable (@FiletypeOptionsType JsValue)).

(** X9.  The renderer is set up on the raw text with a fixed start: the
    file name first, then the shared stylesheet if it exists, then the
    [__WEB__] flag; the only thing that may follow is the hash plugin of a
    configuration file that exists, loads and has a truthy [ui].  Without
    a configuration file the set-up cannot fail. *)
Theorem stylus_renderer_setup path (src : string) :
  let STYLES_PATH := join cwd "styles/index.styl" in
  let CONFIG_PATH := join cwd "startupjs.config.js" in
  let fixed :=
    ([StylusSet "filename" path] ++
     (if existsSync STYLES_PATH then [StylusImport STYLES_PATH] else []) ++
     [StylusDefine "__WEB__" true])%list in
  (forall compiler : StylusRenderer,
      stylusCompiler path src = Returns compiler ->
      str compiler = src /\
      exists uses : list StylusCall,
        calls compiler = (fixed ++ uses)%list /\
        (uses = [] \/
         exists config ui : JsValue,
           existsSync CONFIG_PATH = true /\
           require CONFIG_PATH = Returns config /\
           property config "ui" = Returns ui /\
           truthy ui = true /\
           uses = [StylusUse (stylusHashPlugin "$UI" ui)])) /\
  (existsSync CONFIG_PATH = false ->
   stylusCompiler path src = Returns {| str := src; calls := fixed |}).
Proof.
  intros STYLES_PATH CONFIG_PATH fixed. unfold stylusCompiler.
  fold STYLES_PATH CONFIG_PATH. subst fixed.
  destruct (existsSync STYLES_PATH); destruct (existsSync CONFIG_PATH) eqn:Hconfig;
    (split; [|try discriminate; try reflexivity]);
    intros compiler Hret; unfold mbind, outcome_bind in Hret;
    try (injection Hret as <-; split; [reflexivity|];
         exists []; split; [reflexivity|now left]).
  all: destruct (require CONFIG_PATH) as [config|] eqn:Hload; [|discriminate].
  all: destruct (property config "ui") as [ui|] eqn:Hui; [|discriminate].
  all: destruct (truthy ui) eqn:Htruthy; injection Hret as <-;
    (split; [reflexivity|]).
  all: try (exists [StylusUse (stylusHashPlugin "$UI" ui)];
            split; [reflexivity|right; now exists config, ui]).
  all: exists []; split; [reflexivity|now left].
Qed.

(** X10.  A configuration file that exists but fails to load makes the
    extraction of a stylus source throw the loader's own error, not a
    wrapped one, with the console untouched; the compiler is not reached. *)
Theorem config_load_error_not_wrapped
    (runner : Processor) path filetypeOptions (raw : string)
    (e : JsError) (c : Console) :
  isStylusPath path = true ->
  readFileSync path = Returns raw ->
  existsSync (join cwd "startupjs.config.js") = true ->
  require (join cwd "startupjs.config.js") = Throws e ->
  getTokens runner path filetypeOptions c = (Throws e, c).
Proof.
  intros Hstyl Hread Hexists Hload. apply getTokens_prepare_throws.
  rewrite prepareSource_stylus by assumption.
  unfold mbind, outcome_bind. rewrite Hread.
  unfold stylusCompiler, mbind, outcome_bind. now rewrite Hexists, Hload.
Qed.

(** X11.  On a stylus path the extraction does not depend on the
    filetype options it is given: with the same runner, any two give the
    same outcome and the same console. *)
Theorem stylus_path_ignores_filetype_options
    (runner : Processor) path
    (first second : Nullable (@FiletypeOptionsType JsValue)) (c : Console) :
  isStylusPath path = true ->
  getTokens runner path first c = getTokens runner path second c.
Proof.
  intros Hstyl. unfold getTokens.
  now rewrite (prepareSource_stylus path first),
              (prepareSource_stylus path second).
Qed.

(** X12.  Once the extra plugins loaded and the source is prepared, the
    outcome of the top-level call is that of the pipeline run: an error
    the run throws is thrown on as it is, with the console as the run
    left it and no warning printed; a result gives its tokens, after its
    warning texts were appended to the console the run left. *)
Theorem call_outcome_follows_engine
    (depth : nat) path options (extraPlugins : list JsValue)
    (src : string) (processOptions : ProcessOptions) (c : Console) :
  let filetypeOptions := getFiletypeOptions path (filetypes options) in
  let generate := scopedNameGenerator options in
  getExtraPlugins filetypeOptions = Returns extraPlugins ->
  prepareSource path filetypeOptions = Returns (src, processOptions) ->
  requireCssModule depth path options c =
    match
      postcssProcess
        (postcss (pipeline extraPlugins generate
                    (fetch depth extraPlugins generate filetypeOptions)))
        src processOptions c
    with
    | (Returns lazyResult, c') =>
        (Returns (root_tokens lazyResult),
         (c' ++ map text (warnings lazyResult))%list)
    | (Throws e, c') => (Throws e, c')
    end.
Proof.
  intros filetypeOptions generate Hextra Hprep.
  unfold requireCssModule, mbind, M_bind, lift at 1.
  fold filetypeOptions generate. rewrite Hextra.
  now apply getTokens_prepared.
Qed.

End Dialect.

(** X13.  On a path that is not a stylus path the extraction uses the
    host only to read the file, to load the syntax and to run the
    pipeline: two hosts that agree on these give the same outcome,
    however they differ in working directory, existing files,
    configuration and stylus compiler. *)
Theorem plain_path_needs_no_stylus
    {JsValue : Type} (here there : @Host JsValue)
    (runner : Processor) (path : string)
    (filetypeOptions : Nullable (@FiletypeOptionsType JsValue))
    (c : Console) :
  isStylusPath path = false ->
  @readFileSync _ here path = @readFileSync _ there path ->
  @getSyntax _ here filetypeOptions = @getSyntax _ there filetypeOptions ->
  (forall (src : string) (processOptions : ProcessOptions),
      @postcssProcess _ here runner src processOptions c
      = @postcssProcess _ there runner src processOptions c) ->
  @getTokens _ here runner path filetypeOptions c
  = @getTokens _ there runner path filetypeOptions c.
Proof.
  intros Hplain Hread Hsyntax Hrun.
  assert (Hprep : @prepareSource _ here path filetypeOptions
                  = @prepareSource _ there path filetypeOptions).
  { rewrite !prepareSource_plain by assumption. now rewrite Hread, Hsyntax. }
  unfold getTokens, mbind, M_bind, lift. rewrite Hprep.
  destruct (@prepareSource _ there path filetypeOptions)
    as [[src processOptions]|]; [|reflexivity].
  cbn [fst snd]. now rewrite Hrun.
Qed.

(** ** How much stack a call needs *)

Section StackDepth.
Context {JsValue : Type} {host : @Host JsValue}.

Implicit Types (path : string) (options : @OptionsType JsValue).

(** X14.  When the pipeline run on a file does not consult the fetch
    function (the file composes from no other), the top-level call does
    the same at every stack depth, depth zero included: such a call cannot
    end in the stack-depth error of [fetch]. *)
Theorem import_free_call_needs_no_stack
    path options (extraPlugins : list JsValue)
    (src : string) (processOptions : ProcessOptions) :
  let filetypeOptions := getFiletypeOptions path (filetypes options) in
  let generate := scopedNameGenerator options in
  getExtraPlugins filetypeOptions = Returns extraPlugins ->
  prepareSource path filetypeOptions = Returns (src, processOptions) ->
  (forall (f g : string -> string -> M Tokens) (c : Console),
      postcssProcess (postcss (pipeline extraPlugins generate f))
        src processOptions c
      = postcssProcess (postcss (pipeline extraPlugins generate g))
          src processOptions c) ->
  forall (shallow deep : nat) (c : Console),
    requireCssModule shallow path options c
    = requireCssModule deep path options c.
Proof.
  intros filetypeOptions generate Hextra Hprep Hfree shallow deep c.
  unfold requireCssModule, mbind, M_bind, lift at 1 2.
  fold filetypeOptions generate. rewrite Hextra.
  rewrite !(getTokens_prepared _ _ _ _ _ _ Hprep).
  now rewrite (Hfree (fetch shallow extraPlugins generate filetypeOptions)
                     (fetch deep extraPlugins generate filetypeOptions)).
Qed.

(** X15.  When the run on a file consults the fetch function for one
    import only, and the run on the imported file consults it not at all,
    room for a single nested fetch is enough: the top-level call does the
    same at every depth from one on. *)
Theorem single_import_needs_one_frame
    options (importer imported to srcImporter srcImported : string)
    (optionsImporter optionsImported : ProcessOptions)
    (extraPlugins : list JsValue) :
  let filetypeOptions := getFiletypeOptions importer (filetypes options) in
  let generate := scopedNameGenerator options in
  getExtraPlugins filetypeOptions = Returns extraPlugins ->
  resolve (dirname importer) to = imported ->
  prepareSource importer filetypeOptions
    = Returns (srcImporter, optionsImporter) ->
  prepareSource imported filetypeOptions
    = Returns (srcImported, optionsImported) ->
  (forall (f g : string -> string -> M Tokens) (c : Console),
      (forall c' : Console, f to importer c' = g to importer c') ->
      postcssProcess (postcss (pipeline extraPlugins generate f))
        srcImporter optionsImporter c
      = postcssProcess (postcss (pipeline extraPlugins generate g))
          srcImporter optionsImporter c) ->
  (forall (f g : string -> string -> M Tokens) (c : Console),
      postcssProcess (postcss (pipeline extraPlugins generate f))
        srcImported optionsImported c
      = postcssProcess (postcss (pipeline extraPlugins generate g))
          srcImported optionsImported c) ->
  forall (one another : nat) (c : Console),
    requireCssModule (S one) importer options c
    = requireCssModule (S another) importer options c.
Proof.
  intros filetypeOptions generate Hextra Hto HprepA HprepB HonlyB Hfree
         one another c.
  unfold requireCssModule, mbind, M_bind, lift at 1 2.
  fold filetypeOptions generate. rewrite Hextra.
  rewrite !(getTokens_prepared _ _ _ _ _ _ HprepA).
  rewrite (HonlyB (fetch (S one) extraPlugins generate filetypeOptions)
                  (fetch (S another) extraPlugins generate filetypeOptions));
    [reflexivity|].
  intros c'. cbn [fetch]. rewrite Hto.
  rewrite !(getTokens_prepared _ _ _ _ _ _ HprepB).
  now rewrite (Hfree (fetch one extraPlugins generate filetypeOptions)
                     (fetch another extraPlugins generate filetypeOptions)).
Qed.

End StackDepth.

(** ** The further statements at work on the small hosts *)

Lemma isStylusPath_iff_suffix_witness :
  isStylusPath "/app/theme.styl" = true /\
  isStylusPath "/app/theme.styl.css" = false.
Proof.
  split.
  - apply (proj2 (isStylusPath_iff_suffix "/app/theme.styl")).
    now exists "/app/theme".
  - reflexivity.
Defined.

Lemma extra_plugins_loaded_in_order_witness :
  @getExtraPlugins string Demo.host (Val Demo.scssOptions)
  = Returns ["postcss-nested"; "autoprefixer({})"].
Proof.
  apply (proj2 (extra_plugins_loaded_in_order (host := Demo.host)
                  Demo.scssOptions
                  [PluginName "postcss-nested";
                   PluginWithOptions "autoprefixer" "{}"]
                  ["postcss-nested"; "autoprefixer({})"] eq_refl)).
  repeat constructor.
Defined.

Lemma first_failing_plugin_stops_the_call_witness :
  @requireCssModule string Demo.host 3 "/app/nowhere.css"
    (DemoProject.options DemoProject.brokenPlugins) ["earlier line"]
  = (Throws Demo.noSuchModule, ["earlier line"]).
Proof.
  apply (first_failing_plugin_stops_the_call (host := Demo.host)
           3 "/app/nowhere.css"
           (DemoProject.options DemoProject.brokenPlugins)
           DemoProject.brokenPlugins
           [PluginName "postcss-nested"]
           [PluginWithOptions "autoprefixer" "{}"]
           (PluginName "missing") ["postcss-nested"]
           Demo.noSuchModule ["earlier line"]).
  - vm_compute. reflexivity.
  - reflexivity.
  - repeat constructor.
  - reflexivity.
Defined.

Lemma read_error_reaches_caller_witness :
  @requireCssModule string Demo.host 3 "/app/nowhere.css" Demo.options []
  = (Throws Demo.noSuchFile, []).
Proof.
  destruct (read_error_reaches_caller (host := Demo.host)
              (postcss []) "/app/nowhere.css" Undefined
              Demo.noSuchFile [] eq_refl) as (_ & _ & Htop).
  apply (Htop 3%nat Demo.options []). vm_compute. reflexivity.
Defined.

Lemma syntax_load_error_reaches_caller_witness :
  @getTokens string Demo.host (postcss []) "/app/button.css"
    (Val DemoProject.brokenSyntax) []
  = (Throws Demo.noSuchModule, []).
Proof.
  apply (syntax_load_error_reaches_caller (host := Demo.host)
           (postcss []) "/app/button.css" DemoProject.brokenSyntax
           "missing" "button" Demo.noSuchModule []);
    try reflexivity.
  discriminate.
Defined.

Lemma entry_without_syntax_sets_null_witness :
  @prepareSource string Demo.host "/app/button.css"
    (Val DemoProject.pluginsOnly)
  = Returns ("button", {| from := "/app/button.css"; syntax := Some Null |}).
Proof.
  apply (entry_without_syntax_sets_null (host := Demo.host)
           "/app/button.css" DemoProject.pluginsOnly "button");
    try reflexivity.
  now left.
Defined.

Lemma prepared_options_name_the_file_witness :
  @prepareSource string Demo.host "/app/main.scss" (Val Demo.scssOptions)
  = Returns ("@button.css",
             {| from := "/app/main.scss";
                syntax := Some (Val "postcss-scss") |}) /\
  from {| from := "/app/main.scss"; syntax := Some (Val "postcss-scss") |}
  = "/app/main.scss".
Proof.
  split; [reflexivity|].
  apply (prepared_options_name_the_file (host := Demo.host)
           "/app/main.scss" (Val Demo.scssOptions) "@button.css").
  reflexivity.
Defined.

Lemma stylus_renderer_setup_witness :
  @stylusCompiler string (DemoProject.host true) "/app/theme.styl" "theme"
  = Returns
      {| str := "theme";
         calls := [StylusSet "filename" "/app/theme.styl";
                   StylusImport "/project/styles/index.styl";
                   StylusDefine "__WEB__" true;
                   StylusUse "$UI=dark ui"] |} /\
  @stylusCompiler string Demo.host "/app/theme.styl" "theme"
  = Returns
      {| str := "theme";
         calls := [StylusSet "filename" "/app/theme.styl";
                   StylusDefine "__WEB__" true] |}.
Proof.
  split; [reflexivity|].
  apply (proj2 (stylus_renderer_setup (host := Demo.host)
                  "/app/theme.styl" "theme")).
  reflexivity.
Defined.

Lemma config_load_error_not_wrapped_witness :
  @getTokens string (DemoProject.host false) (postcss [])
    "/app/theme.styl" Undefined []
  = (Throws Demo.noSuchModule, []).
Proof.
  apply (config_load_error_not_wrapped (host := DemoProject.host false)
           (postcss []) "/app/theme.styl" Undefined "theme"
           Demo.noSuchModule []);
    reflexivity.
Defined.

Lemma stylus_path_ignores_filetype_options_witness :
  @getTokens string Demo.host (postcss []) "/app/theme.styl"
    (Val DemoProject.brokenSyntax) []
  = @getTokens string Demo.host (postcss []) "/app/theme.styl" Null [].
Proof.
  apply (stylus_path_ignores_filetype_options (host := Demo.host)
           (postcss []) "/app/theme.styl"
           (Val DemoProject.brokenSyntax) Null []).
  reflexivity.
Defined.

Lemma call_outcome_follows_engine_witness :
  @requireCssModule string Demo.host 3 "/app/button.css" Demo.options
    ["earlier line"]
  = (Returns {[ "button" := "_button" ]},
     ["earlier line"; "/app/button.css syntax unset"]).
Proof.
  etransitivity.
  - apply (call_outcome_follows_engine (host := Demo.host)
             3 "/app/button.css" Demo.options [] "button"
             {| from := "/app/button.css"; syntax := None |}
             ["earlier line"]);
      vm_compute; reflexivity.
  - vm_compute. reflexivity.
Defined.

Lemma plain_path_needs_no_stylus_witness :
  @getTokens string Demo.host (postcss []) "/app/button.css"
    (Val Demo.scssOptions) []
  = @getTokens string (DemoProject.host false) (postcss [])
      "/app/button.css" (Val Demo.scssOptions) [].
Proof.
  apply (plain_path_needs_no_stylus Demo.host (DemoProject.host false)
           (postcss []) "/app/button.css" (Val Demo.scssOptions) []);
    try reflexivity.
Defined.

Lemma import_free_call_needs_no_stack_witness :
  @requireCssModule string Demo.host 0 "/app/button.css" Demo.options []
  = @requireCssModule string Demo.host 1000 "/app/button.css" Demo.options [].
Proof.
  apply (import_free_call_needs_no_stack (host := Demo.host)
           "/app/button.css" Demo.options [] "button"
           {| from := "/app/button.css"; syntax := None |});
    vm_compute; reflexivity.
Defined.

Lemma single_import_needs_one_frame_witness :
  @requireCssModule string Demo.host 1 "/app/main.scss" Demo.options []
  = @requireCssModule string Demo.host 1000 "/app/main.scss" Demo.options [].
Proof.
  apply (single_import_needs_one_frame (host := Demo.host)
           Demo.options "/app/main.scss" "/app/button.css" "button.css"
           "@button.css" "button"
           {| from := "/app/main.scss";
              syntax := Some (Val "postcss-scss") |}
           {| from := "/app/button.css";
              syntax := Some (Val "postcss-scss") |}
           ["postcss-nested"; "autoprefixer({})"]);
    try (vm_compute; reflexivity).
  intros f g c Hsame. cbn. unfold Demo.process, mbind, M_bind. cbn.
  now rewrite Hsame.
Defined.
